(** * go-libzfs: the typed vocabulary of [common.go]

    A shallow embedding of [common.go]: the enumerations of pool and
    device health, of background scans, of properties and of error codes,
    their [String] renderers, and the bridge to the last error recorded by
    libzfs.  Go integers are values of [Z]; a Go [switch] over constants is
    the function [switch] below; the libzfs handle behind the package-level
    variable [libzfsHandle] is an explicit state. *)

From Stdlib Require Import ZArith String List Bool Lia Sorted.
Import ListNotations.
Local Open Scope Z_scope.
Local Open Scope string_scope.

(** ** Go integers *)

(** The values of a [uint64]. *)
Definition uint64_range (z : Z) : Prop := 0 <= z < 2 ^ 64.

(** ** The expression switch *)

(** [switch tag { case c1: b1 ... default: d }] over constant cases: the
    cases are tried from the top, the first one equal to the tag is taken,
    and the default clause when none is. *)
Fixpoint switch {A : Type} (tag : Z) (cases : list (Z * A)) (default : A) : A :=
  match cases with
  | [] => default
  | (c, body) :: rest => if (tag =? c)%Z then body else switch tag rest default
  end.

(** ** Constant blocks numbered by [iota] *)

(** One line of a [const ( ... )] block: the identifier it declares and the
    comment that documents it on the same line. *)
Record const_spec : Type := Const { const_name : string; const_comment : string }.

Definition Name (n : string) : const_spec := Const n EmptyString.

Definition iota_block : Type := list const_spec.

(** In a block that opens with [= iota], the line at position [i] (from 0)
    declares the value [i]. *)
Fixpoint iota_from (i : Z) (b : iota_block) : list (const_spec * Z) :=
  match b with
  | [] => []
  | c :: rest => (c, i) :: iota_from (i + 1) rest
  end.

Definition iota_values (b : iota_block) : list Z := map snd (iota_from 0 b).

Definition iota_names (b : iota_block) : list string := map const_name b.

(** The value declared on the line documented by [doc]. *)
Definition iota_of_comment (doc : string) (b : iota_block) : option Z :=
  option_map snd
    (find (fun ci => String.eqb (const_comment (fst ci)) doc) (iota_from 0 b)).

(** The value declared under the identifier [n]. *)
Definition iota_of_name (n : string) (b : iota_block) : option Z :=
  option_map snd
    (find (fun ci => String.eqb (const_name (fst ci)) n) (iota_from 0 b)).

(** ** PoolStatus *)

(** [type PoolStatus int] *)
Definition PoolStatus : Type := Z.

Definition PoolStatusCorruptCache : PoolStatus := 0.
Definition PoolStatusMissingDevR : PoolStatus := 1.
Definition PoolStatusMissingDevNr : PoolStatus := 2.
Definition PoolStatusCorruptLabelR : PoolStatus := 3.
Definition PoolStatusCorruptLabelNr : PoolStatus := 4.
Definition PoolStatusBadGUIDSum : PoolStatus := 5.
Definition PoolStatusCorruptPool : PoolStatus := 6.
Definition PoolStatusCorruptData : PoolStatus := 7.
Definition PoolStatusFailingDev : PoolStatus := 8.
Definition PoolStatusVersionNewer : PoolStatus := 9.
Definition PoolStatusHostidMismatch : PoolStatus := 10.
Definition PoolStatusIoFailureWait : PoolStatus := 11.
Definition PoolStatusIoFailureContinue : PoolStatus := 12.
Definition PoolStatusBadLog : PoolStatus := 13.
Definition PoolStatusErrata : PoolStatus := 14.
Definition PoolStatusUnsupFeatRead : PoolStatus := 15.
Definition PoolStatusUnsupFeatWrite : PoolStatus := 16.
Definition PoolStatusFaultedDevR : PoolStatus := 17.
Definition PoolStatusFaultedDevNr : PoolStatus := 18.
Definition PoolStatusVersionOlder : PoolStatus := 19.
Definition PoolStatusFeatDisabled : PoolStatus := 20.
Definition PoolStatusResilvering : PoolStatus := 21.
Definition PoolStatusOfflineDev : PoolStatus := 22.
Definition PoolStatusRemovedDev : PoolStatus := 23.
Definition PoolStatusOk : PoolStatus := 24.

Definition PoolStatus_block : iota_block :=
  [ Const "PoolStatusCorruptCache" "corrupt /kernel/drv/zpool.cache"
  ; Const "PoolStatusMissingDevR" "missing device with replicas"
  ; Const "PoolStatusMissingDevNr" "missing device with no replicas"
  ; Const "PoolStatusCorruptLabelR" "bad device label with replicas"
  ; Const "PoolStatusCorruptLabelNr" "bad device label with no replicas"
  ; Const "PoolStatusBadGUIDSum" "sum of device guids didn't match"
  ; Const "PoolStatusCorruptPool" "pool metadata is corrupted"
  ; Const "PoolStatusCorruptData" "data errors in user (meta)data"
  ; Const "PoolStatusFailingDev" "device experiencing errors"
  ; Const "PoolStatusVersionNewer" "newer on-disk version"
  ; Const "PoolStatusHostidMismatch" "last accessed by another system"
  ; Const "PoolStatusIoFailureWait" "failed I/O, failmode 'wait'"
  ; Const "PoolStatusIoFailureContinue" "failed I/O, failmode 'continue'"
  ; Const "PoolStatusBadLog" "cannot read log chain(s)"
  ; Const "PoolStatusErrata" "informational errata available"
  ; Const "PoolStatusUnsupFeatRead" "unsupported features for read"
  ; Const "PoolStatusUnsupFeatWrite" "unsupported features for write"
  ; Const "PoolStatusFaultedDevR" "faulted device with replicas"
  ; Const "PoolStatusFaultedDevNr" "faulted device with no replicas"
  ; Const "PoolStatusVersionOlder" "older legacy on-disk version"
  ; Const "PoolStatusFeatDisabled" "supported features are disabled"
  ; Const "PoolStatusResilvering" "device being resilvered"
  ; Const "PoolStatusOfflineDev" "device online"
  ; Const "PoolStatusRemovedDev" "removed device"
  ; Name "PoolStatusOk" ].

Definition PoolStatus_values : list PoolStatus :=
  [ PoolStatusCorruptCache; PoolStatusMissingDevR; PoolStatusMissingDevNr;
    PoolStatusCorruptLabelR; PoolStatusCorruptLabelNr;
    PoolStatusBadGUIDSum; PoolStatusCorruptPool; PoolStatusCorruptData;
    PoolStatusFailingDev; PoolStatusVersionNewer;
    PoolStatusHostidMismatch; PoolStatusIoFailureWait;
    PoolStatusIoFailureContinue; PoolStatusBadLog; PoolStatusErrata;
    PoolStatusUnsupFeatRead; PoolStatusUnsupFeatWrite;
    PoolStatusFaultedDevR; PoolStatusFaultedDevNr; PoolStatusVersionOlder;
    PoolStatusFeatDisabled; PoolStatusResilvering; PoolStatusOfflineDev;
    PoolStatusRemovedDev; PoolStatusOk ].

(** [func (s PoolStatus) String() string] *)
Definition PoolStatus_String (s : PoolStatus) : string :=
  switch s
    [ (PoolStatusCorruptCache, "corrupt cache")
    ; (PoolStatusMissingDevR, "missing device; replicas available")
    ; (PoolStatusMissingDevNr, "missing device; no replicas available")
    ; (PoolStatusCorruptLabelR, "bad device label; replicas available")
    ; (PoolStatusCorruptLabelNr, "bad device label; no replicas available")
    ; (PoolStatusBadGUIDSum, "bad device GUID checksum")
    ; (PoolStatusCorruptPool, "corrupt pool metadata")
    ; (PoolStatusCorruptData, "corrupt user data")
    ; (PoolStatusFailingDev, "device(s) failing")
    ; (PoolStatusVersionNewer, "on-disk version too new; unsupported")
    ; (PoolStatusHostidMismatch,
       "host ID mismatch; last accessed by another system")
    ; (PoolStatusIoFailureWait, "failed I/O; failmode is 'wait'")
    ; (PoolStatusIoFailureContinue, "failed I/O; failmodde is 'continue'")
    ; (PoolStatusBadLog, "cannot read log chain(s)")
    ; (PoolStatusErrata, "informational errata available")
    ; (PoolStatusUnsupFeatRead,
       "pool is using unsupported features that are required for read access")
    ; (PoolStatusUnsupFeatWrite,
       "pool is using unsupported features that are required for write access")
    ; (PoolStatusFaultedDevR, "device faulted; replicas available")
    ; (PoolStatusFaultedDevNr, "device faulted; no replicas available")
    ; (PoolStatusVersionOlder, "on-disk version is old and can be upgraded")
    ; (PoolStatusFeatDisabled, "supported features are disabled")
    ; (PoolStatusResilvering, "resilvering (scrubbing) in progress")
    ; (PoolStatusOfflineDev, "device(s) offline")
    ; (PoolStatusRemovedDev, "device(s) removed")
    ; (PoolStatusOk, "healthy") ]
    "UNKNOWN".

(** ** PoolState *)

(** [type PoolState uint64] *)
Definition PoolState : Type := Z.

Definition PoolStateActive : PoolState := 0.
Definition PoolStateExported : PoolState := 1.
Definition PoolStateDestroyed : PoolState := 2.
Definition PoolStateSpare : PoolState := 3.
Definition PoolStateL2cache : PoolState := 4.
Definition PoolStateUninitialized : PoolState := 5.
Definition PoolStateUnavail : PoolState := 6.
Definition PoolStatePotentiallyActive : PoolState := 7.

Definition PoolState_values : list PoolState :=
  [ PoolStateActive; PoolStateExported; PoolStateDestroyed;
    PoolStateSpare; PoolStateL2cache; PoolStateUninitialized;
    PoolStateUnavail; PoolStatePotentiallyActive ].

(** [func (s PoolState) String() string] *)
Definition PoolState_String (s : PoolState) : string :=
  switch s
    [ (PoolStateActive, "active")
    ; (PoolStateExported, "exported")
    ; (PoolStateDestroyed, "destroyed")
    ; (PoolStateSpare, "spare")
    ; (PoolStateL2cache, "L2 cache")
    ; (PoolStateUninitialized, "uninitialized")
    ; (PoolStateUnavail, "unavailable")
    ; (PoolStatePotentiallyActive, "potentially active") ]
    "UNKNOWN".

(** ** VDevState *)

(** [type VDevState uint64] *)
Definition VDevState : Type := Z.

(** "vdev states are ordered from least to most healthy.  A vdev that's
    VDevStateCantOpen or below is considered unusable." *)
Definition VDevStateUnknown : VDevState := 0.
Definition VDevStateClosed : VDevState := 1.
Definition VDevStateOffline : VDevState := 2.
Definition VDevStateRemoved : VDevState := 3.
Definition VDevStateCantOpen : VDevState := 4.
Definition VDevStateFaulted : VDevState := 5.
Definition VDevStateDegraded : VDevState := 6.
Definition VDevStateHealthy : VDevState := 7.

Definition VDevState_values : list VDevState :=
  [ VDevStateUnknown; VDevStateClosed; VDevStateOffline; VDevStateRemoved;
    VDevStateCantOpen; VDevStateFaulted; VDevStateDegraded;
    VDevStateHealthy ].

(** [func (s VDevState) String() string] *)
Definition VDevState_String (s : VDevState) : string :=
  switch s
    [ (VDevStateUnknown, "uninitialized (or perhaps unknown?)")
    ; (VDevStateClosed, "closed")
    ; (VDevStateOffline, "offline")
    ; (VDevStateRemoved, "removed")
    ; (VDevStateCantOpen, "cannot open")
    ; (VDevStateFaulted, "faulted")
    ; (VDevStateDegraded, "degraded")
    ; (VDevStateHealthy, "online") ]
    "UNKNOWN".

(** The comparison [a < b] of two values of the type, as Go compares
    unsigned integers. *)
Definition VDevState_lt (a b : VDevState) : bool := (a <? b)%Z.

(** ** PoolScanFunc and DSLScanState *)

(** [type PoolScanFunc uint64], after [pool_scan_func_t]. *)
Definition PoolScanFunc : Type := Z.

Definition PoolScanFuncNone : PoolScanFunc := 0.
Definition PoolScanFuncScrub : PoolScanFunc := 1.
Definition PoolScanFuncResilver : PoolScanFunc := 2.

Definition PoolScanFunc_values : list PoolScanFunc :=
  [ PoolScanFuncNone; PoolScanFuncScrub; PoolScanFuncResilver ].

(** [func (f PoolScanFunc) String() string] *)
Definition PoolScanFunc_String (f : PoolScanFunc) : string :=
  switch f
    [ (PoolScanFuncNone, "none")
    ; (PoolScanFuncScrub, "scrub")
    ; (PoolScanFuncResilver, "resilver") ]
    "<UNKNOWN-VALUE>".

(** [type DSLScanState uint64], after [dsl_scan_state_t]. *)
Definition DSLScanState : Type := Z.

Definition DSLScanStateNone : DSLScanState := 0.
Definition DSLScanStateScanning : DSLScanState := 1.
Definition DSLScanStateFinished : DSLScanState := 2.
Definition DSLScanStateCanceled : DSLScanState := 3.

Definition DSLScanState_values : list DSLScanState :=
  [ DSLScanStateNone; DSLScanStateScanning; DSLScanStateFinished;
    DSLScanStateCanceled ].

(** [func (s DSLScanState) String() string] *)
Definition DSLScanState_String (s : DSLScanState) : string :=
  switch s
    [ (DSLScanStateNone, "none")
    ; (DSLScanStateScanning, "scanning")
    ; (DSLScanStateFinished, "finished")
    ; (DSLScanStateCanceled, "canceled") ]
    "<UNKNOWN-VALUE>".

(** ** VDevAux *)

(** [type VDevAux uint64]: "When a vdev is in the VDevStateCantOpen state,
    the aux field of the vdev stats structure uses these constants to
    distinguish why." *)
Definition VDevAux : Type := Z.

Definition VDevAuxNone : VDevAux := 0.
Definition VDevAuxOpenFailed : VDevAux := 1.
Definition VDevAuxCorruptData : VDevAux := 2.
Definition VDevAuxNoReplicas : VDevAux := 3.
Definition VDevAuxBadGUIDSum : VDevAux := 4.
Definition VDevAuxTooSmall : VDevAux := 5.
Definition VDevAuxBadLabel : VDevAux := 6.
Definition VDevAuxVersionNewer : VDevAux := 7.
Definition VDevAuxVersionOlder : VDevAux := 8.
Definition VDevAuxUnsupFeat : VDevAux := 9.
Definition VDevAuxSpared : VDevAux := 10.
Definition VDevAuxErrExceeded : VDevAux := 11.
Definition VDevAuxIOFailure : VDevAux := 12.
Definition VDevAuxBadLog : VDevAux := 13.
Definition VDevAuxExternal : VDevAux := 14.
Definition VDevAuxSplitPool : VDevAux := 15.

Definition VDevAux_block : iota_block :=
  [ Const "VDevAuxNone" "no error"
  ; Const "VDevAuxOpenFailed" "ldi_open_*() or vn_open() failed"
  ; Const "VDevAuxCorruptData" "bad label or disk contents"
  ; Const "VDevAuxNoReplicas" "insufficient number of replicas"
  ; Const "VDevAuxBadGUIDSum" "vdev guid sum doesn't match"
  ; Const "VDevAuxTooSmall" "vdev size is too small"
  ; Const "VDevAuxBadLabel" "the label is OK but invalid"
  ; Const "VDevAuxVersionNewer" "on-disk version is too new"
  ; Const "VDevAuxVersionOlder" "on-disk version is too old"
  ; Const "VDevAuxUnsupFeat" "unsupported features"
  ; Const "VDevAuxSpared" "hot spare used in another pool"
  ; Const "VDevAuxErrExceeded" "too many errors"
  ; Const "VDevAuxIOFailure" "experienced I/O failure"
  ; Const "VDevAuxBadLog" "cannot read log chain(s)"
  ; Const "VDevAuxExternal" "external diagnosis"
  ; Const "VDevAuxSplitPool" "vdev was split off into another pool" ].

Definition VDevAux_values : list VDevAux :=
  [ VDevAuxNone; VDevAuxOpenFailed; VDevAuxCorruptData; VDevAuxNoReplicas;
    VDevAuxBadGUIDSum; VDevAuxTooSmall; VDevAuxBadLabel;
    VDevAuxVersionNewer; VDevAuxVersionOlder; VDevAuxUnsupFeat;
    VDevAuxSpared; VDevAuxErrExceeded; VDevAuxIOFailure; VDevAuxBadLog;
    VDevAuxExternal; VDevAuxSplitPool ].

(** ** Properties *)

(** [type Prop int] *)
Definition Prop_ : Type := Z.

(** Pool properties. *)
Definition PoolPropName : Prop_ := 0.
Definition PoolPropSize : Prop_ := 1.
Definition PoolPropCapacity : Prop_ := 2.
Definition PoolPropAltroot : Prop_ := 3.
Definition PoolPropHealth : Prop_ := 4.
Definition PoolPropGUID : Prop_ := 5.
Definition PoolPropVersion : Prop_ := 6.
Definition PoolPropBootfs : Prop_ := 7.
Definition PoolPropDelegation : Prop_ := 8.
Definition PoolPropAutoreplace : Prop_ := 9.
Definition PoolPropCachefile : Prop_ := 10.
Definition PoolPropFailuremode : Prop_ := 11.
Definition PoolPropListsnaps : Prop_ := 12.
Definition PoolPropAutoexpand : Prop_ := 13.
Definition PoolPropDedupditto : Prop_ := 14.
Definition PoolPropDedupratio : Prop_ := 15.
Definition PoolPropFree : Prop_ := 16.
Definition PoolPropAllocated : Prop_ := 17.
Definition PoolPropReadonly : Prop_ := 18.
Definition PoolPropAshift : Prop_ := 19.
Definition PoolPropComment : Prop_ := 20.
Definition PoolPropExpandsz : Prop_ := 21.
Definition PoolPropFreeing : Prop_ := 22.
Definition PoolPropFragmentaion : Prop_ := 23.
Definition PoolPropLeaked : Prop_ := 24.
Definition PoolPropMaxBlockSize : Prop_ := 25.
Definition PoolPropTName : Prop_ := 26.
Definition PoolNumProps : Prop_ := 27.

Definition PoolProp_block : iota_block :=
  [ Name "PoolPropName"
  ; Name "PoolPropSize"
  ; Name "PoolPropCapacity"
  ; Name "PoolPropAltroot"
  ; Name "PoolPropHealth"
  ; Name "PoolPropGUID"
  ; Name "PoolPropVersion"
  ; Name "PoolPropBootfs"
  ; Name "PoolPropDelegation"
  ; Name "PoolPropAutoreplace"
  ; Name "PoolPropCachefile"
  ; Name "PoolPropFailuremode"
  ; Name "PoolPropListsnaps"
  ; Name "PoolPropAutoexpand"
  ; Name "PoolPropDedupditto"
  ; Name "PoolPropDedupratio"
  ; Name "PoolPropFree"
  ; Name "PoolPropAllocated"
  ; Name "PoolPropReadonly"
  ; Name "PoolPropAshift"
  ; Name "PoolPropComment"
  ; Name "PoolPropExpandsz"
  ; Name "PoolPropFreeing"
  ; Name "PoolPropFragmentaion"
  ; Name "PoolPropLeaked"
  ; Name "PoolPropMaxBlockSize"
  ; Name "PoolPropTName"
  ; Name "PoolNumProps" ].

(** Dataset properties. *)
Definition DatasetPropType : Prop_ := 0.
Definition DatasetPropCreation : Prop_ := 1.
Definition DatasetPropUsed : Prop_ := 2.
Definition DatasetPropAvailable : Prop_ := 3.
Definition DatasetPropReferenced : Prop_ := 4.
Definition DatasetPropCompressratio : Prop_ := 5.
Definition DatasetPropMounted : Prop_ := 6.
Definition DatasetPropOrigin : Prop_ := 7.
Definition DatasetPropQuota : Prop_ := 8.
Definition DatasetPropReservation : Prop_ := 9.
Definition DatasetPropVolsize : Prop_ := 10.
Definition DatasetPropVolblocksize : Prop_ := 11.
Definition DatasetPropRecordsize : Prop_ := 12.
Definition DatasetPropMountpoint : Prop_ := 13.
Definition DatasetPropSharenfs : Prop_ := 14.
Definition DatasetPropChecksum : Prop_ := 15.
Definition DatasetPropCompression : Prop_ := 16.
Definition DatasetPropAtime : Prop_ := 17.
Definition DatasetPropDevices : Prop_ := 18.
Definition DatasetPropExec : Prop_ := 19.
Definition DatasetPropSetuid : Prop_ := 20.
Definition DatasetPropReadonly : Prop_ := 21.
Definition DatasetPropZoned : Prop_ := 22.
Definition DatasetPropSnapdir : Prop_ := 23.
Definition DatasetPropPrivate : Prop_ := 24.
Definition DatasetPropAclinherit : Prop_ := 25.
Definition DatasetPropCreatetxg : Prop_ := 26.
Definition DatasetPropName : Prop_ := 27.
Definition DatasetPropCanmount : Prop_ := 28.
Definition DatasetPropIscsioptions : Prop_ := 29.
Definition DatasetPropXattr : Prop_ := 30.
Definition DatasetPropNumclones : Prop_ := 31.
Definition DatasetPropCopies : Prop_ := 32.
Definition DatasetPropVersion : Prop_ := 33.
Definition DatasetPropUtf8only : Prop_ := 34.
Definition DatasetPropNormalize : Prop_ := 35.
Definition DatasetPropCase : Prop_ := 36.
Definition DatasetPropVscan : Prop_ := 37.
Definition DatasetPropNbmand : Prop_ := 38.
Definition DatasetPropSharesmb : Prop_ := 39.
Definition DatasetPropRefquota : Prop_ := 40.
Definition DatasetPropRefreservation : Prop_ := 41.
Definition DatasetPropGUID : Prop_ := 42.
Definition DatasetPropPrimarycache : Prop_ := 43.
Definition DatasetPropSecondarycache : Prop_ := 44.
Definition DatasetPropUsedsnap : Prop_ := 45.
Definition DatasetPropUsedds : Prop_ := 46.
Definition DatasetPropUsedchild : Prop_ := 47.
Definition DatasetPropUsedrefreserv : Prop_ := 48.
Definition DatasetPropUseraccounting : Prop_ := 49.
Definition DatasetPropStmfShareinfo : Prop_ := 50.
Definition DatasetPropDeferDestroy : Prop_ := 51.
Definition DatasetPropUserrefs : Prop_ := 52.
Definition DatasetPropLogbias : Prop_ := 53.
Definition DatasetPropUnique : Prop_ := 54.
Definition DatasetPropObjsetid : Prop_ := 55.
Definition DatasetPropDedup : Prop_ := 56.
Definition DatasetPropMlslabel : Prop_ := 57.
Definition DatasetPropSync : Prop_ := 58.
Definition DatasetPropRefratio : Prop_ := 59.
Definition DatasetPropWritten : Prop_ := 60.
Definition DatasetPropClones : Prop_ := 61.
Definition DatasetPropLogicalused : Prop_ := 62.
Definition DatasetPropLogicalreferenced : Prop_ := 63.
Definition DatasetPropInconsistent : Prop_ := 64.
Definition DatasetPropSnapdev : Prop_ := 65.
Definition DatasetPropAcltype : Prop_ := 66.
Definition DatasetPropSelinuxContext : Prop_ := 67.
Definition DatasetPropSelinuxFsContext : Prop_ := 68.
Definition DatasetPropSelinuxDefContext : Prop_ := 69.
Definition DatasetPropSelinuxRootContext : Prop_ := 70.
Definition DatasetPropRelatime : Prop_ := 71.
Definition DatasetPropRedundantMetadata : Prop_ := 72.
Definition DatasetPropOverlay : Prop_ := 73.
Definition DatasetNumProps : Prop_ := 74.

Definition DatasetProp_block : iota_block :=
  [ Name "DatasetPropType"
  ; Name "DatasetPropCreation"
  ; Name "DatasetPropUsed"
  ; Name "DatasetPropAvailable"
  ; Name "DatasetPropReferenced"
  ; Name "DatasetPropCompressratio"
  ; Name "DatasetPropMounted"
  ; Name "DatasetPropOrigin"
  ; Name "DatasetPropQuota"
  ; Name "DatasetPropReservation"
  ; Name "DatasetPropVolsize"
  ; Name "DatasetPropVolblocksize"
  ; Name "DatasetPropRecordsize"
  ; Name "DatasetPropMountpoint"
  ; Name "DatasetPropSharenfs"
  ; Name "DatasetPropChecksum"
  ; Name "DatasetPropCompression"
  ; Name "DatasetPropAtime"
  ; Name "DatasetPropDevices"
  ; Name "DatasetPropExec"
  ; Name "DatasetPropSetuid"
  ; Name "DatasetPropReadonly"
  ; Name "DatasetPropZoned"
  ; Name "DatasetPropSnapdir"
  ; Const "DatasetPropPrivate" "not exposed to user, temporary"
  ; Name "DatasetPropAclinherit"
  ; Const "DatasetPropCreatetxg" "not exposed to the user"
  ; Const "DatasetPropName" "not exposed to the user"
  ; Name "DatasetPropCanmount"
  ; Const "DatasetPropIscsioptions" "not exposed to the user"
  ; Name "DatasetPropXattr"
  ; Const "DatasetPropNumclones" "not exposed to the user"
  ; Name "DatasetPropCopies"
  ; Name "DatasetPropVersion"
  ; Name "DatasetPropUtf8only"
  ; Name "DatasetPropNormalize"
  ; Name "DatasetPropCase"
  ; Name "DatasetPropVscan"
  ; Name "DatasetPropNbmand"
  ; Name "DatasetPropSharesmb"
  ; Name "DatasetPropRefquota"
  ; Name "DatasetPropRefreservation"
  ; Name "DatasetPropGUID"
  ; Name "DatasetPropPrimarycache"
  ; Name "DatasetPropSecondarycache"
  ; Name "DatasetPropUsedsnap"
  ; Name "DatasetPropUsedds"
  ; Name "DatasetPropUsedchild"
  ; Name "DatasetPropUsedrefreserv"
  ; Const "DatasetPropUseraccounting" "not exposed to the user"
  ; Const "DatasetPropStmfShareinfo" "not exposed to the user"
  ; Name "DatasetPropDeferDestroy"
  ; Name "DatasetPropUserrefs"
  ; Name "DatasetPropLogbias"
  ; Const "DatasetPropUnique" "not exposed to the user"
  ; Const "DatasetPropObjsetid" "not exposed to the user"
  ; Name "DatasetPropDedup"
  ; Name "DatasetPropMlslabel"
  ; Name "DatasetPropSync"
  ; Name "DatasetPropRefratio"
  ; Name "DatasetPropWritten"
  ; Name "DatasetPropClones"
  ; Name "DatasetPropLogicalused"
  ; Name "DatasetPropLogicalreferenced"
  ; Const "DatasetPropInconsistent" "not exposed to the user"
  ; Name "DatasetPropSnapdev"
  ; Name "DatasetPropAcltype"
  ; Name "DatasetPropSelinuxContext"
  ; Name "DatasetPropSelinuxFsContext"
  ; Name "DatasetPropSelinuxDefContext"
  ; Name "DatasetPropSelinuxRootContext"
  ; Name "DatasetPropRelatime"
  ; Name "DatasetPropRedundantMetadata"
  ; Name "DatasetPropOverlay"
  ; Name "DatasetNumProps" ].

(** ** ZFS errors *)

(** The block is untyped: [ESuccess = 0], then [ENomem = 2000 << iota] on the
    line where [iota] is 1, and every later line repeats that expression
    with its own [iota].  Untyped constants are exact integers. *)
Definition ESuccess : Z := 0.
Definition ENomem : Z := Z.shiftl 2000 1.
Definition EBadprop : Z := Z.shiftl 2000 2.
Definition EPropreadonly : Z := Z.shiftl 2000 3.
Definition EProptype : Z := Z.shiftl 2000 4.
Definition EPropnoninherit : Z := Z.shiftl 2000 5.
Definition EPropspace : Z := Z.shiftl 2000 6.
Definition EBadtype : Z := Z.shiftl 2000 7.
Definition EBusy : Z := Z.shiftl 2000 8.
Definition EExists : Z := Z.shiftl 2000 9.
Definition ENoent : Z := Z.shiftl 2000 10.
Definition EBadstream : Z := Z.shiftl 2000 11.
Definition EDsreadonly : Z := Z.shiftl 2000 12.
Definition EVoltoobig : Z := Z.shiftl 2000 13.
Definition EInvalidname : Z := Z.shiftl 2000 14.
Definition EBadrestore : Z := Z.shiftl 2000 15.
Definition EBadbackup : Z := Z.shiftl 2000 16.
Definition EBadtarget : Z := Z.shiftl 2000 17.
Definition ENodevice : Z := Z.shiftl 2000 18.
Definition EBaddev : Z := Z.shiftl 2000 19.
Definition ENoreplicas : Z := Z.shiftl 2000 20.
Definition EResilvering : Z := Z.shiftl 2000 21.
Definition EBadversion : Z := Z.shiftl 2000 22.
Definition EPoolunavail : Z := Z.shiftl 2000 23.
Definition EDevoverflow : Z := Z.shiftl 2000 24.
Definition EBadpath : Z := Z.shiftl 2000 25.
Definition ECrosstarget : Z := Z.shiftl 2000 26.
Definition EZoned : Z := Z.shiftl 2000 27.
Definition EMountfailed : Z := Z.shiftl 2000 28.
Definition EUmountfailed : Z := Z.shiftl 2000 29.
Definition EUnsharenfsfailed : Z := Z.shiftl 2000 30.
Definition ESharenfsfailed : Z := Z.shiftl 2000 31.
Definition EPerm : Z := Z.shiftl 2000 32.
Definition ENospc : Z := Z.shiftl 2000 33.
Definition EFault : Z := Z.shiftl 2000 34.
Definition EIo : Z := Z.shiftl 2000 35.
Definition EIntr : Z := Z.shiftl 2000 36.
Definition EIsspare : Z := Z.shiftl 2000 37.
Definition EInvalconfig : Z := Z.shiftl 2000 38.
Definition ERecursive : Z := Z.shiftl 2000 39.
Definition ENohistory : Z := Z.shiftl 2000 40.
Definition EPoolprops : Z := Z.shiftl 2000 41.
Definition EPoolNotsup : Z := Z.shiftl 2000 42.
Definition EPoolInvalarg : Z := Z.shiftl 2000 43.
Definition ENametoolong : Z := Z.shiftl 2000 44.
Definition EOpenfailed : Z := Z.shiftl 2000 45.
Definition ENocap : Z := Z.shiftl 2000 46.
Definition ELabelfailed : Z := Z.shiftl 2000 47.
Definition EBadwho : Z := Z.shiftl 2000 48.
Definition EBadperm : Z := Z.shiftl 2000 49.
Definition EBadpermset : Z := Z.shiftl 2000 50.
Definition ENodelegation : Z := Z.shiftl 2000 51.
Definition EUnsharesmbfailed : Z := Z.shiftl 2000 52.
Definition ESharesmbfailed : Z := Z.shiftl 2000 53.
Definition EBadcache : Z := Z.shiftl 2000 54.
Definition EIsl2CACHE : Z := Z.shiftl 2000 55.
Definition EVdevnotsup : Z := Z.shiftl 2000 56.
Definition ENotsup : Z := Z.shiftl 2000 57.
Definition EActiveSpare : Z := Z.shiftl 2000 58.
Definition EUnplayedLogs : Z := Z.shiftl 2000 59.
Definition EReftagRele : Z := Z.shiftl 2000 60.
Definition EReftagHold : Z := Z.shiftl 2000 61.
Definition ETagtoolong : Z := Z.shiftl 2000 62.
Definition EPipefailed : Z := Z.shiftl 2000 63.
Definition EThreadcreatefailed : Z := Z.shiftl 2000 64.
Definition EPostsplitOnline : Z := Z.shiftl 2000 65.
Definition EScrubbing : Z := Z.shiftl 2000 66.
Definition ENoScrub : Z := Z.shiftl 2000 67.
Definition EDiff : Z := Z.shiftl 2000 68.
Definition EDiffdata : Z := Z.shiftl 2000 69.
Definition EPoolreadonly : Z := Z.shiftl 2000 70.
Definition EUnknown : Z := Z.shiftl 2000 71.

Definition ErrorCode_values : list Z :=
  [ ESuccess; ENomem; EBadprop; EPropreadonly; EProptype; EPropnoninherit;
    EPropspace; EBadtype; EBusy; EExists; ENoent; EBadstream; EDsreadonly;
    EVoltoobig; EInvalidname; EBadrestore; EBadbackup; EBadtarget;
    ENodevice; EBaddev; ENoreplicas; EResilvering; EBadversion;
    EPoolunavail; EDevoverflow; EBadpath; ECrosstarget; EZoned;
    EMountfailed; EUmountfailed; EUnsharenfsfailed; ESharenfsfailed;
    EPerm; ENospc; EFault; EIo; EIntr; EIsspare; EInvalconfig; ERecursive;
    ENohistory; EPoolprops; EPoolNotsup; EPoolInvalarg; ENametoolong;
    EOpenfailed; ENocap; ELabelfailed; EBadwho; EBadperm; EBadpermset;
    ENodelegation; EUnsharesmbfailed; ESharesmbfailed; EBadcache;
    EIsl2CACHE; EVdevnotsup; ENotsup; EActiveSpare; EUnplayedLogs;
    EReftagRele; EReftagHold; ETagtoolong; EPipefailed;
    EThreadcreatefailed; EPostsplitOnline; EScrubbing; ENoScrub; EDiff;
    EDiffdata; EPoolreadonly; EUnknown ].

(** ** The last error of libzfs *)

(** What the two accessors of libzfs read of the handle that [libzfsHandle]
    points to: the error number and the text that describes it. *)
Record libzfs_handle : Type :=
  { libzfs_error : Z; libzfs_desc : string }.

(** A call across cgo: it reads, and may change, the one handle of the
    process. *)
Definition Cgo (A : Type) : Type := libzfs_handle -> A * libzfs_handle.

Definition ret {A : Type} (a : A) : Cgo A := fun h => (a, h).

Definition bind {A B : Type} (m : Cgo A) (k : A -> Cgo B) : Cgo B :=
  fun h => let (a, h') := m h in k a h'.

Notation "x <- m ;; k" := (bind m (fun x => k))
  (at level 61, m at next level, right associativity).

(** [C.libzfs_errno(libzfsHandle)] *)
Definition C_libzfs_errno : Cgo Z := fun h => (libzfs_error h, h).

(** [C.libzfs_error_description(libzfsHandle)] *)
Definition C_libzfs_error_description : Cgo string :=
  fun h => (libzfs_desc h, h).

(** [C.GoString]: the bytes of the C string, copied. *)
Definition C_GoString (s : string) : string := s.

(** Modelled from the spec: [clear_last_error], which [common.go] calls
    through cgo and [zpool.h] declares, is defined in the C part of the
    package and not in [common.go].  It "unconditionally resets the
    engine's last-error state to empty": no error number and no
    description are left. *)
Definition C_clear_last_error : Cgo unit :=
  fun _ => (tt, {| libzfs_error := 0; libzfs_desc := EmptyString |}).

(** The value that [errors.New(text)] returns. *)
Inductive errorString : Type := errors_New (text : string).

(** Its method [Error() string]. *)
Definition Error (e : errorString) : string :=
  match e with errors_New text => text end.

(** The interface type [error]: [nil] is [None]. *)
Definition error : Type := option errorString.

(** [func LastError() (err error)] *)
Definition LastError : Cgo error :=
  errno <- C_libzfs_errno ;;
  if (errno =? 0)%Z then ret None
  else
    desc <- C_libzfs_error_description ;;
    ret (Some (errors_New (C_GoString desc))).

(** [func ClearLastError() (err error)] *)
Definition ClearLastError : Cgo error :=
  err <- LastError ;;
  _ <- C_clear_last_error ;;
  ret err.

(** ** Operations the spec names that [common.go] does not define *)

(** Modelled from the spec: [isUsable] (section 4.3, "isUsable(state) =
    state > CantOpen").  [common.go] has no such function; it states the
    boundary in the comment above the VDevState constants only ("A vdev
    that's VDevStateCantOpen or below is considered unusable"). *)
Definition isUsable (state : VDevState) : bool :=
  (VDevStateCantOpen <? state)%Z.

(** Modelled from the spec: the renderer of VDevAux (section 4.3,
    "VDevAux.describe() renders a fixed string").  [common.go] gives the
    type no [String] method; the fixed string of a constant is taken to be
    the comment that documents it in the declaration, and the fallback is
    that of the sibling renderers of device state. *)
Definition VDevAux_describe (a : VDevAux) : string :=
  switch a
    (map (fun ci => (snd ci, const_comment (fst ci)))
       (iota_from 0 VDevAux_block))
    "UNKNOWN".

(** The outcome of a lookup in the property registry. *)
Inductive lookup_result : Type :=
  | Found (name : string)
  | Failed (code : Z).

(** Modelled from the spec: the registry's lookup of the name of a property
    identifier (section 4.1), which is not part of [common.go].  The name of
    an identifier of the closed range [0, NumProps) is the one its
    declaration gives it; outside the range the lookup "fails with an
    ErrorCode of ENotsup". *)
Definition Prop_name (block : iota_block) (NumProps id : Prop_)
  : lookup_result :=
  if ((0 <=? id) && (id <? NumProps))%Z then
    match nth_error (iota_names block) (Z.to_nat id) with
    | Some n => Found n
    | None => Failed ENotsup
    end
  else Failed ENotsup.

Definition PoolProp_name : Prop_ -> lookup_result :=
  Prop_name PoolProp_block PoolNumProps.

Definition DatasetProp_name : Prop_ -> lookup_result :=
  Prop_name DatasetProp_block DatasetNumProps.

(** ** Further declarations of [common.go] *)

(** [type VDevType string], the type of a device in the pool, and the
    string constants the package declares for it. *)
Definition VDevType : Type := string.

Definition VDevTypeRoot : VDevType := "root".
Definition VDevTypeMirror : string := "mirror".
Definition VDevTypeReplacing : string := "replacing".
Definition VDevTypeRaidz : string := "raidz".
Definition VDevTypeDisk : string := "disk".
Definition VDevTypeFile : string := "file".
Definition VDevTypeMissing : string := "missing".
Definition VDevTypeHole : string := "hole".
Definition VDevTypeSpare : string := "spare".
Definition VDevTypeLog : string := "log".
Definition VDevTypeL2cache : string := "l2cache".

Definition VDevType_values : list string :=
  [ VDevTypeRoot; VDevTypeMirror; VDevTypeReplacing; VDevTypeRaidz
  ; VDevTypeDisk; VDevTypeFile; VDevTypeMissing; VDevTypeHole
  ; VDevTypeSpare; VDevTypeLog; VDevTypeL2cache ].

(** [func booleanT(b bool) (r C.boolean_t)] *)
Definition booleanT (b : bool) : Z := if b then 1 else 0.

(** The property identifiers of each block, in declaration order, without
    the closing count ([PoolNumProps], [DatasetNumProps]). *)
Definition PoolProp_ids : list Prop_ :=
  [ PoolPropName; PoolPropSize; PoolPropCapacity; PoolPropAltroot;
    PoolPropHealth; PoolPropGUID; PoolPropVersion; PoolPropBootfs;
    PoolPropDelegation; PoolPropAutoreplace; PoolPropCachefile;
    PoolPropFailuremode; PoolPropListsnaps; PoolPropAutoexpand;
    PoolPropDedupditto; PoolPropDedupratio; PoolPropFree;
    PoolPropAllocated; PoolPropReadonly; PoolPropAshift; PoolPropComment;
    PoolPropExpandsz; PoolPropFreeing; PoolPropFragmentaion;
    PoolPropLeaked; PoolPropMaxBlockSize; PoolPropTName ].

Definition DatasetProp_ids : list Prop_ :=
  [ DatasetPropType; DatasetPropCreation; DatasetPropUsed;
    DatasetPropAvailable; DatasetPropReferenced; DatasetPropCompressratio;
    DatasetPropMounted; DatasetPropOrigin; DatasetPropQuota;
    DatasetPropReservation; DatasetPropVolsize; DatasetPropVolblocksize;
    DatasetPropRecordsize; DatasetPropMountpoint; DatasetPropSharenfs;
    DatasetPropChecksum; DatasetPropCompression; DatasetPropAtime;
    DatasetPropDevices; DatasetPropExec; DatasetPropSetuid;
    DatasetPropReadonly; DatasetPropZoned; DatasetPropSnapdir;
    DatasetPropPrivate; DatasetPropAclinherit; DatasetPropCreatetxg;
    DatasetPropName; DatasetPropCanmount; DatasetPropIscsioptions;
    DatasetPropXattr; DatasetPropNumclones; DatasetPropCopies;
    DatasetPropVersion; DatasetPropUtf8only; DatasetPropNormalize;
    DatasetPropCase; DatasetPropVscan; DatasetPropNbmand;
    DatasetPropSharesmb; DatasetPropRefquota; DatasetPropRefreservation;
    DatasetPropGUID; DatasetPropPrimarycache; DatasetPropSecondarycache;
    DatasetPropUsedsnap; DatasetPropUsedds; DatasetPropUsedchild;
    DatasetPropUsedrefreserv; DatasetPropUseraccounting;
    DatasetPropStmfShareinfo; DatasetPropDeferDestroy;
    DatasetPropUserrefs; DatasetPropLogbias; DatasetPropUnique;
    DatasetPropObjsetid; DatasetPropDedup; DatasetPropMlslabel;
    DatasetPropSync; DatasetPropRefratio; DatasetPropWritten;
    DatasetPropClones; DatasetPropLogicalused;
    DatasetPropLogicalreferenced; DatasetPropInconsistent;
    DatasetPropSnapdev; DatasetPropAcltype; DatasetPropSelinuxContext;
    DatasetPropSelinuxFsContext; DatasetPropSelinuxDefContext;
    DatasetPropSelinuxRootContext; DatasetPropRelatime;
    DatasetPropRedundantMetadata; DatasetPropOverlay ].

(** [ClearLastError] with the C helper it calls left open: the body of the
    function for any behaviour [clear] of [clear_last_error]. *)
Definition ClearLastError_with (clear : Cgo unit) : Cgo error :=
  err <- LastError ;;
  _ <- clear ;;
  ret err.

(** Neighbours in the list increase. *)
Fixpoint increasing (l : list Z) : bool :=
  match l with
  | x :: ((y :: _) as rest) => (x <? y)%Z && increasing rest
  | _ => true
  end.

(** ** Decidable checks used by the proofs *)

(** No element occurs twice, for an equality test [eqb]. *)
Fixpoint nodupb {A : Type} (eqb : A -> A -> bool) (l : list A) : bool :=
  match l with
  | [] => true
  | x :: rest => negb (existsb (eqb x) rest) && nodupb eqb rest
  end.

(** The differences between neighbours of a list, and the property of one
    fixed stride. *)
Fixpoint differences (l : list Z) : list Z :=
  match l with
  | x :: ((y :: _) as rest) => (y - x) :: differences rest
  | _ => []
  end.

Definition fixed_stride (l : list Z) : Prop :=
  exists d : Z, Forall (fun x => x = d) (differences l).

(** Every element after the first is twice the one before it. *)
Fixpoint doubles (l : list Z) : bool :=
  match l with
  | x :: ((y :: _) as rest) => (y =? 2 * x)%Z && doubles rest
  | _ => true
  end.

(** A renderer [String] of an enumeration whose defined values are
    [0 .. n-1]: each defined value has its description, every input outside
    the range gives the sentinel, and no input gives the empty string. *)
Definition renders (String : Z -> string) (values : list Z)
  (descriptions : list string) (sentinel : string) : Prop :=
  values = map Z.of_nat (seq 0 (List.length values))
  /\ map String values = descriptions
  /\ (forall s : Z,
        ~ (0 <= s < Z.of_nat (List.length values)) -> String s = sentinel)
  /\ (forall s : Z, String s <> EmptyString).

(** ** Facts about [switch] *)

Section SwitchFacts.
Context {A : Type}.

Lemma switch_default (tag : Z) (cases : list (Z * A)) (d : A) :
  ~ In tag (map fst cases) -> switch tag cases d = d.
Proof.
  induction cases as [| [c body] rest IH]; simpl; intros Hnot.
  - reflexivity.
  - destruct (Z.eqb_spec tag c) as [-> | Hne].
    + exfalso. apply Hnot. now left.
    + apply IH. intros Hin. apply Hnot. now right.
Qed.

Lemma switch_inv (tag : Z) (cases : list (Z * A)) (d v : A) :
  switch tag cases d = v ->
  In (tag, v) cases \/ (v = d /\ ~ In tag (map fst cases)).
Proof.
  induction cases as [| [c body] rest IH]; simpl; intros Heq.
  - right. split; [ now symmetry | tauto ].
  - destruct (Z.eqb_spec tag c) as [-> | Hne].
    + left. left. now rewrite Heq.
    + destruct (IH Heq) as [Hin | [Hd Hnot]].
      * left. now right.
      * right. split; [ exact Hd | ]. intros [Hc | Hin]; [ | tauto ].
        apply Hne. now symmetry.
Qed.

Lemma switch_result (tag : Z) (cases : list (Z * A)) (d : A) :
  switch tag cases d = d \/ In (switch tag cases d) (map snd cases).
Proof.
  induction cases as [| [c body] rest IH]; simpl.
  - now left.
  - destruct (tag =? c)%Z.
    + right. now left.
    + destruct IH as [IH | IH]; [now left | right; now right].
Qed.

End SwitchFacts.

(** A renderer never yields the empty string when no clause of its switch
    does. *)
Lemma switch_nonempty (tag : Z) (cases : list (Z * string)) (d : string) :
  d <> EmptyString ->
  forallb (fun c => negb (String.eqb (snd c) EmptyString)) cases = true ->
  switch tag cases d <> EmptyString.
Proof.
  intros Hd Hall.
  destruct (switch_result tag cases d) as [-> | Hin]; [exact Hd |].
  apply in_map_iff in Hin. destruct Hin as [[c body] [Heq Hin]].
  simpl in Heq. rewrite <- Heq.
  rewrite forallb_forall in Hall. specialize (Hall _ Hin). simpl in Hall.
  intros Hempty. rewrite Hempty in Hall. discriminate.
Qed.


(** ** The value lists agree with the numbering by [iota] *)

Lemma PoolStatus_values_iota :
  PoolStatus_values = iota_values PoolStatus_block.
Proof. reflexivity. Qed.

Lemma VDevAux_values_iota : VDevAux_values = iota_values VDevAux_block.
Proof. reflexivity. Qed.

Lemma Prop_blocks_iota :
  iota_of_name "PoolPropName" PoolProp_block = Some PoolPropName
  /\ iota_of_name "PoolNumProps" PoolProp_block = Some PoolNumProps
  /\ iota_of_name "DatasetPropType" DatasetProp_block = Some DatasetPropType
  /\ iota_of_name "DatasetNumProps" DatasetProp_block
     = Some DatasetNumProps.
Proof. repeat split. Qed.

Lemma enum_values_from_zero :
  PoolStatus_values = map Z.of_nat (seq 0 25)
  /\ PoolState_values = map Z.of_nat (seq 0 8)
  /\ VDevState_values = map Z.of_nat (seq 0 8)
  /\ PoolScanFunc_values = map Z.of_nat (seq 0 3)
  /\ DSLScanState_values = map Z.of_nat (seq 0 4).
Proof. repeat split. Qed.

(** ** Renderers *)

Example PoolStatus_String_runs :
  map PoolStatus_String [ -1; 0; 24; 25 ]
  = [ "UNKNOWN"; "corrupt cache"; "healthy"; "UNKNOWN" ].
Proof. reflexivity. Qed.

Example DSLScanState_String_runs :
  map DSLScanState_String [ 1; 3; 4; 2 ^ 64 - 1 ]
  = [ "scanning"; "canceled"; "<UNKNOWN-VALUE>"; "<UNKNOWN-VALUE>" ].
Proof. reflexivity. Qed.

(** Closes [String s = sentinel] for a tag that is none of the cases:
    [Hout] says that [s] is outside the range the cases cover. *)
Ltac outside_the_cases Hout :=
  apply switch_default;
  let Hin := fresh "Hin" in
  intros Hin; vm_compute in Hin, Hout;
  repeat (destruct Hin as [Hin | Hin];
          [ subst; apply Hout; split; [ discriminate | reflexivity ] | ]);
  exact Hin.

Ltac never_empty :=
  let s := fresh "s" in
  intros s; apply switch_nonempty; [ discriminate | reflexivity ].

Ltac renderer_facts :=
  split; [ reflexivity | split; [ reflexivity | split ] ];
  [ let s := fresh "s" in let Hout := fresh "Hout" in
    intros s Hout; outside_the_cases Hout
  | never_empty ].

(** C1.  Every renderer ([PoolStatus], [PoolState], [VDevState],
    [PoolScanFunc], [DSLScanState]) is a total function: the defined values,
    which are [0 .. n-1], map to their fixed descriptions; every other
    input, any negative [PoolStatus] included, gives the sentinel
    ["UNKNOWN"] (the first three) or ["<UNKNOWN-VALUE>"] (the two scan
    types); and no input gives the empty string. *)
Theorem String_total :
  renders PoolStatus_String PoolStatus_values
    [ "corrupt cache"
    ; "missing device; replicas available"
    ; "missing device; no replicas available"
    ; "bad device label; replicas available"
    ; "bad device label; no replicas available"
    ; "bad device GUID checksum"
    ; "corrupt pool metadata"
    ; "corrupt user data"
    ; "device(s) failing"
    ; "on-disk version too new; unsupported"
    ; "host ID mismatch; last accessed by another system"
    ; "failed I/O; failmode is 'wait'"
    ; "failed I/O; failmodde is 'continue'"
    ; "cannot read log chain(s)"
    ; "informational errata available"
    ; "pool is using unsupported features that are required for read access"
    ; "pool is using unsupported features that are required for write access"
    ; "device faulted; replicas available"
    ; "device faulted; no replicas available"
    ; "on-disk version is old and can be upgraded"
    ; "supported features are disabled"
    ; "resilvering (scrubbing) in progress"
    ; "device(s) offline"
    ; "device(s) removed"
    ; "healthy" ]
    "UNKNOWN"
  /\ (forall s : PoolStatus, s < 0 -> PoolStatus_String s = "UNKNOWN")
  /\ renders PoolState_String PoolState_values
       [ "active"; "exported"; "destroyed"; "spare"; "L2 cache"
       ; "uninitialized"; "unavailable"; "potentially active" ]
       "UNKNOWN"
  /\ renders VDevState_String VDevState_values
       [ "uninitialized (or perhaps unknown?)"; "closed"; "offline"
       ; "removed"; "cannot open"; "faulted"; "degraded"; "online" ]
       "UNKNOWN"
  /\ renders PoolScanFunc_String PoolScanFunc_values
       [ "none"; "scrub"; "resilver" ]
       "<UNKNOWN-VALUE>"
  /\ renders DSLScanState_String DSLScanState_values
       [ "none"; "scanning"; "finished"; "canceled" ]
       "<UNKNOWN-VALUE>".
Proof.
  split; [ renderer_facts | ].
  split.
  { intros s Hneg. apply switch_default. intros Hin. vm_compute in Hin.
    repeat (destruct Hin as [Hin | Hin]; [ subst; discriminate Hneg | ]).
    exact Hin. }
  repeat split; try reflexivity; try never_empty;
    intros s Hout; outside_the_cases Hout.
Qed.

(** C10.  [VDevState.String] renders [VDevStateHealthy] as ["online"], not
    ["healthy"], and [VDevStateUnknown] as
    ["uninitialized (or perhaps unknown?)"], not ["unknown"]; no device
    state at all is rendered as ["healthy"] or as ["unknown"], so the
    rendered strings are not the names of the health scale. *)
Theorem VDevState_String_not_scale_names :
  VDevState_String VDevStateHealthy = "online"
  /\ VDevState_String VDevStateHealthy <> "healthy"
  /\ VDevState_String VDevStateUnknown = "uninitialized (or perhaps unknown?)"
  /\ VDevState_String VDevStateUnknown <> "unknown"
  /\ (forall s : VDevState,
        VDevState_String s <> "healthy" /\ VDevState_String s <> "unknown").
Proof.
  repeat split; try reflexivity; try discriminate;
    intros Heq; apply switch_inv in Heq;
    destruct Heq as [Hin | [Hd _]]; try discriminate Hd;
    simpl in Hin;
    repeat (destruct Hin as [Hin | Hin]; [ discriminate Hin | ]);
    exact Hin.
Qed.

(** C7.  The status declared for "sum of device guids didn't match" is
    [PoolStatusBadGUIDSum], the value 5 of the enumeration; the raw code 5
    is that status, and it renders as ["bad device GUID checksum"]. *)
Theorem PoolStatusBadGUIDSum_renders :
  iota_of_comment "sum of device guids didn't match" PoolStatus_block
    = Some PoolStatusBadGUIDSum
  /\ iota_of_name "PoolStatusBadGUIDSum" PoolStatus_block = Some 5
  /\ PoolStatusBadGUIDSum = 5
  /\ PoolStatus_String PoolStatusBadGUIDSum = "bad device GUID checksum"
  /\ (forall raw : Z,
        PoolStatus_String raw = "bad device GUID checksum" <->
        raw = PoolStatusBadGUIDSum).
Proof.
  repeat split; try reflexivity.
  - intros Heq. apply switch_inv in Heq.
    destruct Heq as [Hin | [Hd _]]; [ | discriminate Hd ].
    simpl in Hin.
    repeat (destruct Hin as [Hin | Hin];
            [ try discriminate Hin; now inversion Hin | ]).
    contradiction.
  - intros ->. reflexivity.
Qed.

(** ** The health scale of devices *)

Lemma VDevState_defined_range (s : VDevState) :
  In s VDevState_values <-> 0 <= s <= 7.
Proof.
  split.
  - intros Hin. vm_compute in Hin.
    repeat (destruct Hin as [Hin | Hin]; [ subst s; lia | ]).
    contradiction.
  - intros Hs. rewrite (proj1 (proj2 (proj2 enum_values_from_zero))).
    apply in_map_iff. exists (Z.to_nat s). split; [ lia | ].
    apply in_seq. lia.
Qed.

Lemma VDevState_lt_spec (a b : VDevState) :
  VDevState_lt a b = true <-> a < b.
Proof. unfold VDevState_lt. apply Z.ltb_lt. Qed.

(** C2.  On the eight defined states, [<] is a strict total order:
    irreflexive, transitive, and any two distinct states are comparable.
    [VDevStateHealthy], the value 7, is the unique maximum and
    [VDevStateUnknown], the value 0, is the unique minimum. *)
Theorem VDevState_lt_strict_total_order :
  (forall a, In a VDevState_values -> VDevState_lt a a = false)
  /\ (forall a b c,
        In a VDevState_values -> In b VDevState_values ->
        In c VDevState_values ->
        VDevState_lt a b = true -> VDevState_lt b c = true ->
        VDevState_lt a c = true)
  /\ (forall a b,
        In a VDevState_values -> In b VDevState_values ->
        VDevState_lt a b = true \/ a = b \/ VDevState_lt b a = true)
  /\ (VDevStateHealthy = 7 /\ In VDevStateHealthy VDevState_values
      /\ (forall s, In s VDevState_values -> s <> VDevStateHealthy ->
            VDevState_lt s VDevStateHealthy = true)
      /\ (forall m, In m VDevState_values ->
            (forall s, In s VDevState_values -> VDevState_lt m s = false) ->
            m = VDevStateHealthy))
  /\ (VDevStateUnknown = 0 /\ In VDevStateUnknown VDevState_values
      /\ (forall s, In s VDevState_values -> s <> VDevStateUnknown ->
            VDevState_lt VDevStateUnknown s = true)
      /\ (forall m, In m VDevState_values ->
            (forall s, In s VDevState_values -> VDevState_lt s m = false) ->
            m = VDevStateUnknown)).
Proof.
  assert (Hmax : In VDevStateHealthy VDevState_values)
    by (apply VDevState_defined_range; unfold VDevStateHealthy; lia).
  assert (Hmin : In VDevStateUnknown VDevState_values)
    by (apply VDevState_defined_range; unfold VDevStateUnknown; lia).
  split; [ | split; [ | split; [ | split ] ] ].
  - intros a _. unfold VDevState_lt. apply Z.ltb_irrefl.
  - intros a b c _ _ _ Hab Hbc.
    apply VDevState_lt_spec in Hab. apply VDevState_lt_spec in Hbc.
    apply VDevState_lt_spec. lia.
  - intros a b _ _. rewrite !VDevState_lt_spec. lia.
  - repeat split; [ exact Hmax | | ].
    + intros s Hs Hne. apply VDevState_defined_range in Hs.
      apply VDevState_lt_spec. unfold VDevStateHealthy in *. lia.
    + intros m Hm Htop. specialize (Htop _ Hmax).
      apply VDevState_defined_range in Hm.
      unfold VDevState_lt in Htop. apply Z.ltb_ge in Htop.
      unfold VDevStateHealthy in *. lia.
  - repeat split; [ exact Hmin | | ].
    + intros s Hs Hne. apply VDevState_defined_range in Hs.
      apply VDevState_lt_spec. unfold VDevStateUnknown in *. lia.
    + intros m Hm Hbot. specialize (Hbot _ Hmin).
      apply VDevState_defined_range in Hm.
      unfold VDevState_lt in Hbot. apply Z.ltb_ge in Hbot.
      unfold VDevStateUnknown in *. lia.
Qed.

(** Closed  <  CantOpen  <  Healthy, by transitivity. *)
Lemma VDevState_lt_strict_total_order_witness :
  VDevState_lt VDevStateClosed VDevStateHealthy = true.
Proof.
  apply (proj1 (proj2 VDevState_lt_strict_total_order)
           VDevStateClosed VDevStateCantOpen VDevStateHealthy);
    try reflexivity; apply VDevState_defined_range; vm_compute;
    split; discriminate.
Defined.

(** C9.  [isUsable state] is [state > VDevStateCantOpen] for every value of
    the type.  It is false exactly on Unknown, Closed, Offline, Removed and
    CantOpen, and among the defined states it is true exactly on Faulted,
    Degraded and Healthy; a raw value above the defined states compares as
    usable too. *)
Theorem isUsable_boundary :
  (forall s : VDevState, isUsable s = (s >? VDevStateCantOpen)%Z)
  /\ (forall s : VDevState, uint64_range s ->
        (isUsable s = false <->
         In s [ VDevStateUnknown; VDevStateClosed; VDevStateOffline
              ; VDevStateRemoved; VDevStateCantOpen ]))
  /\ (forall s : VDevState, In s VDevState_values ->
        (isUsable s = true <->
         In s [ VDevStateFaulted; VDevStateDegraded; VDevStateHealthy ]))
  /\ (forall s : VDevState, VDevStateHealthy < s -> isUsable s = true).
Proof.
  unfold isUsable, uint64_range.
  split; [ | split; [ | split ] ].
  - intros s. now rewrite Z.gtb_ltb.
  - intros s [Hlo _]. rewrite Z.ltb_ge. split.
    + intros Hle. unfold VDevStateCantOpen in Hle.
      assert (Hs : s = 0 \/ s = 1 \/ s = 2 \/ s = 3 \/ s = 4) by lia.
      simpl. unfold VDevStateUnknown, VDevStateClosed, VDevStateOffline,
        VDevStateRemoved, VDevStateCantOpen. lia.
    + intros Hin. vm_compute in Hin.
      repeat (destruct Hin as [Hin | Hin];
              [ subst s; unfold VDevStateCantOpen; lia | ]).
      contradiction.
  - intros s Hs. apply VDevState_defined_range in Hs.
    rewrite Z.ltb_lt. split.
    + intros Hgt. unfold VDevStateCantOpen in Hgt. simpl.
      unfold VDevStateFaulted, VDevStateDegraded, VDevStateHealthy. lia.
    + intros Hin. vm_compute in Hin.
      repeat (destruct Hin as [Hin | Hin];
              [ subst s; unfold VDevStateCantOpen; lia | ]).
      contradiction.
  - intros s Hs. apply Z.ltb_lt.
    unfold VDevStateHealthy, VDevStateCantOpen in *. lia.
Qed.

(** Degraded is a defined state on the usable side of the boundary. *)
Lemma isUsable_boundary_witness : isUsable VDevStateDegraded = true.
Proof.
  apply (proj1 (proj2 (proj2 isUsable_boundary)) VDevStateDegraded).
  - apply VDevState_defined_range. vm_compute. split; discriminate.
  - right. left. reflexivity.
Defined.

(** C8.  A device state of CantOpen renders as ["cannot open"], the
    auxiliary reason NoReplicas renders as
    ["insufficient number of replicas"], and CantOpen is not usable. *)
Theorem CantOpen_NoReplicas_scenario :
  VDevState_String VDevStateCantOpen = "cannot open"
  /\ VDevAux_describe VDevAuxNoReplicas = "insufficient number of replicas"
  /\ isUsable VDevStateCantOpen = false.
Proof. repeat split. Qed.

(** ** The last-error bridge *)

Lemma LastError_reads_only (h : libzfs_handle) : snd (LastError h) = h.
Proof.
  unfold LastError, bind, C_libzfs_errno, C_libzfs_error_description, ret.
  destruct (libzfs_error h =? 0)%Z; reflexivity.
Qed.

Lemma LastError_value (h : libzfs_handle) :
  fst (LastError h) =
  if (libzfs_error h =? 0)%Z then None
  else Some (errors_New (libzfs_desc h)).
Proof.
  unfold LastError, bind, C_libzfs_errno, C_libzfs_error_description, ret,
    C_GoString.
  destruct (libzfs_error h =? 0)%Z; reflexivity.
Qed.

Example LastError_runs :
  LastError {| libzfs_error := 2009; libzfs_desc := "no such pool" |}
  = (Some (errors_New "no such pool"),
     {| libzfs_error := 2009; libzfs_desc := "no such pool" |})
  /\ fst (LastError {| libzfs_error := 0; libzfs_desc := "stale" |}) = None.
Proof. split; reflexivity. Qed.

Example ClearLastError_runs :
  ClearLastError {| libzfs_error := 2009; libzfs_desc := "no such pool" |}
  = (Some (errors_New "no such pool"),
     {| libzfs_error := 0; libzfs_desc := EmptyString |}).
Proof. reflexivity. Qed.

(** C5.  [LastError] returns [nil] whenever the error number of libzfs is
    0, hence never an error that wraps the empty string; otherwise it
    returns an error whose description is the description libzfs gives,
    unchanged.  The handle is left as it was. *)
Theorem LastError_nil_or_description (h : libzfs_handle) :
  (libzfs_error h = 0 ->
     fst (LastError h) = None
     /\ fst (LastError h) <> Some (errors_New EmptyString))
  /\ (libzfs_error h <> 0 ->
        exists e : errorString,
          fst (LastError h) = Some e /\ Error e = libzfs_desc h)
  /\ snd (LastError h) = h.
Proof.
  rewrite LastError_value. split; [ | split ].
  - intros ->. simpl. split; [ reflexivity | discriminate ].
  - intros Hne. apply Z.eqb_neq in Hne. rewrite Hne.
    exists (errors_New (libzfs_desc h)). split; reflexivity.
  - apply LastError_reads_only.
Qed.

(** With error 2009 recorded, the error returned reads as libzfs describes
    it. *)
Lemma LastError_nil_or_description_witness :
  exists e : errorString,
    fst (LastError {| libzfs_error := 2009; libzfs_desc := "no such pool" |})
      = Some e
    /\ Error e = "no such pool".
Proof.
  apply (proj1 (proj2 (LastError_nil_or_description
           {| libzfs_error := 2009; libzfs_desc := "no such pool" |}))).
  simpl. discriminate.
Defined.

(** C6.  Whatever error state libzfs is in, the no-error state included,
    [ClearLastError] returns what [LastError] would have returned at the
    call, and a [LastError] that follows at once returns [nil]. *)
Theorem ClearLastError_returns_cleared (h : libzfs_handle) :
  fst (ClearLastError h) = fst (LastError h)
  /\ fst (LastError (snd (ClearLastError h))) = None.
Proof.
  unfold ClearLastError, bind, C_clear_last_error, ret.
  destruct (LastError h) as [err h']. simpl. split; reflexivity.
Qed.

(** ** The property registry *)

Section NoDupCheck.
Context {A : Type} (eqb : A -> A -> bool).
Hypothesis eqb_refl : forall x : A, eqb x x = true.

Lemma nodupb_NoDup (l : list A) : nodupb eqb l = true -> NoDup l.
Proof.
  induction l as [| x rest IH]; simpl; intros H.
  - constructor.
  - apply andb_prop in H. destruct H as [Hx Hrest].
    constructor; [ | now apply IH ].
    intros Hin. apply negb_true_iff in Hx.
    assert (Hex : existsb (eqb x) rest = true).
    { apply existsb_exists. exists x. split; [ exact Hin | apply eqb_refl ]. }
    congruence.
Qed.

End NoDupCheck.

Section Registry.
Variable block : iota_block.
Variable NumProps : Prop_.
Hypothesis names_distinct : NoDup (iota_names block).
Hypothesis NumProps_declared :
  (Z.to_nat NumProps <= List.length (iota_names block))%nat.

Lemma Prop_name_defined (id : Prop_) :
  0 <= id < NumProps ->
  exists n, Prop_name block NumProps id = Found n
            /\ nth_error (iota_names block) (Z.to_nat id) = Some n.
Proof.
  intros [Hlo Hhi]. unfold Prop_name.
  apply Z.leb_le in Hlo as Hlo'. apply Z.ltb_lt in Hhi as Hhi'.
  rewrite Hlo', Hhi'. simpl.
  destruct (nth_error (iota_names block) (Z.to_nat id)) as [n |] eqn:Hnth.
  - exists n. split; reflexivity.
  - apply nth_error_None in Hnth. lia.
Qed.

Lemma Prop_name_injective (a b : Prop_) (n : string) :
  0 <= a < NumProps -> 0 <= b < NumProps ->
  Prop_name block NumProps a = Found n ->
  Prop_name block NumProps b = Found n ->
  a = b.
Proof.
  intros Ha Hb Hfa Hfb.
  destruct (Prop_name_defined a Ha) as [na [Ea Hna]].
  destruct (Prop_name_defined b Hb) as [nb [Eb Hnb]].
  rewrite Ea in Hfa. rewrite Eb in Hfb.
  inversion Hfa; inversion Hfb; subst na nb.
  assert (Hnat : Z.to_nat a = Z.to_nat b).
  { apply (proj1 (NoDup_nth_error (iota_names block)) names_distinct).
    - apply nth_error_Some. rewrite Hna. discriminate.
    - now rewrite Hna, Hnb. }
  lia.
Qed.

Lemma Prop_name_outside (id : Prop_) :
  ~ (0 <= id < NumProps) -> Prop_name block NumProps id = Failed ENotsup.
Proof.
  intros Hout. unfold Prop_name.
  destruct (0 <=? id)%Z eqn:Hlo; destruct (id <? NumProps)%Z eqn:Hhi;
    simpl; try reflexivity.
  exfalso. apply Hout. split; [ now apply Z.leb_le | now apply Z.ltb_lt ].
Qed.

End Registry.

Example Prop_name_runs :
  PoolProp_name PoolPropHealth = Found "PoolPropHealth"
  /\ DatasetProp_name DatasetPropOverlay = Found "DatasetPropOverlay"
  /\ PoolProp_name PoolNumProps = Failed ENotsup
  /\ DatasetProp_name (-1) = Failed ENotsup.
Proof. repeat split. Qed.

Lemma PoolProp_names_distinct : NoDup (iota_names PoolProp_block).
Proof. apply (nodupb_NoDup String.eqb String.eqb_refl). reflexivity. Qed.

Lemma DatasetProp_names_distinct : NoDup (iota_names DatasetProp_block).
Proof. apply (nodupb_NoDup String.eqb String.eqb_refl). reflexivity. Qed.

(** C4.  In each namespace, the lookup of a name is defined on every
    identifier of the closed range (from [PoolPropName] up to, not
    including, [PoolNumProps]; from [DatasetPropType] up to, not including,
    [DatasetNumProps]) and injective there; outside the range it fails with
    [ENotsup] and gives no name. *)
Theorem Prop_name_injective_total :
  (forall id : Prop_, PoolPropName <= id < PoolNumProps ->
     exists n, PoolProp_name id = Found n)
  /\ (forall (a b : Prop_) (n : string),
        PoolPropName <= a < PoolNumProps ->
        PoolPropName <= b < PoolNumProps ->
        PoolProp_name a = Found n -> PoolProp_name b = Found n -> a = b)
  /\ (forall id : Prop_, ~ (PoolPropName <= id < PoolNumProps) ->
        PoolProp_name id = Failed ENotsup)
  /\ (forall id : Prop_, DatasetPropType <= id < DatasetNumProps ->
        exists n, DatasetProp_name id = Found n)
  /\ (forall (a b : Prop_) (n : string),
        DatasetPropType <= a < DatasetNumProps ->
        DatasetPropType <= b < DatasetNumProps ->
        DatasetProp_name a = Found n -> DatasetProp_name b = Found n ->
        a = b)
  /\ (forall id : Prop_, ~ (DatasetPropType <= id < DatasetNumProps) ->
        DatasetProp_name id = Failed ENotsup).
Proof.
  assert (Hp : (Z.to_nat PoolNumProps
                <= List.length (iota_names PoolProp_block))%nat)
    by (apply Nat.leb_le; reflexivity).
  assert (Hd : (Z.to_nat DatasetNumProps
                <= List.length (iota_names DatasetProp_block))%nat)
    by (apply Nat.leb_le; reflexivity).
  unfold PoolProp_name, DatasetProp_name.
  change PoolPropName with 0. change DatasetPropType with 0.
  repeat split.
  - intros id Hid.
    destruct (Prop_name_defined PoolProp_block PoolNumProps Hp id Hid)
      as [n [Hn _]].
    now exists n.
  - intros a b n. apply Prop_name_injective.
    + exact PoolProp_names_distinct.
    + exact Hp.
  - apply Prop_name_outside.
  - intros id Hid.
    destruct (Prop_name_defined DatasetProp_block DatasetNumProps Hd id Hid)
      as [n [Hn _]].
    now exists n.
  - intros a b n. apply Prop_name_injective.
    + exact DatasetProp_names_distinct.
    + exact Hd.
  - apply Prop_name_outside.
Qed.

(** [PoolPropHealth] has a name, and [DatasetNumProps], the first
    identifier past the dataset range, has none. *)
Lemma Prop_name_injective_total_witness :
  (exists n, PoolProp_name PoolPropHealth = Found n)
  /\ DatasetProp_name DatasetNumProps = Failed ENotsup.
Proof.
  split.
  - apply (proj1 Prop_name_injective_total PoolPropHealth).
    vm_compute. split; [ discriminate | reflexivity ].
  - apply (proj2 (proj2 (proj2 (proj2 (proj2 Prop_name_injective_total))))
             DatasetNumProps).
    vm_compute. intros [_ H]. discriminate H.
Defined.

(** ** The error codes *)

Lemma ErrorCode_values_by_iota :
  ErrorCode_values =
  0 :: map (fun iota => Z.shiftl 2000 (Z.of_nat iota)) (seq 1 71).
Proof. reflexivity. Qed.

Lemma ErrorCode_values_distinct : NoDup ErrorCode_values.
Proof. apply (nodupb_NoDup Z.eqb Z.eqb_refl). vm_compute. reflexivity. Qed.

(** C3.  [ESuccess] is 0 and the constants are pairwise distinct, but the
    values after [ESuccess] are [2000 << iota]: each is twice the one
    before it, so the differences between neighbours are 4000, 8000,
    16000, ... and no fixed stride separates them.  From [EResilvering]
    (iota 21) on they exceed a C [int], the type of the error number they
    stand for, and from [EBadcache] (iota 54) on they exceed [uint64]. *)
Theorem ErrorCode_stride_doubles :
  ESuccess = 0
  /\ NoDup ErrorCode_values
  /\ ENomem = 4000 /\ EBadprop = 8000 /\ EPropreadonly = 16000
  /\ EBadprop - ENomem <> EPropreadonly - EBadprop
  /\ doubles (tl ErrorCode_values) = true
  /\ ~ fixed_stride (tl ErrorCode_values)
  /\ nth 21 ErrorCode_values 0 = EResilvering
  /\ Forall (fun code => 2 ^ 31 <= code) (skipn 21 ErrorCode_values)
  /\ nth 54 ErrorCode_values 0 = EBadcache
  /\ Forall (fun code => 2 ^ 64 <= code) (skipn 54 ErrorCode_values)
  /\ EUnknown = 2000 * 2 ^ 71.
Proof.
  repeat split; try reflexivity.
  - exact ErrorCode_values_distinct.
  - discriminate.
  - intros [d H]. vm_compute in H.
    inversion H as [| x l Hx Hrest]. subst x l.
    inversion Hrest as [| y l' Hy _]. subst y l'.
    rewrite <- Hy in Hx. discriminate Hx.
  - apply Forall_forall. intros code Hin. vm_compute in Hin.
    repeat (destruct Hin as [Hin | Hin]; [ subst code; discriminate | ]).
    contradiction.
  - apply Forall_forall. intros code Hin. vm_compute in Hin.
    repeat (destruct Hin as [Hin | Hin]; [ subst code; discriminate | ]).
    contradiction.
Qed.

(** ** Renderers can be read back *)

Section SwitchInjective.
Context {A : Type}.

Lemma in_snd_unique (l : list (Z * A)) (a b : Z) (v : A) :
  NoDup (map snd l) -> In (a, v) l -> In (b, v) l -> a = b.
Proof.
  induction l as [| [c body] rest IH]; simpl; intros Hnd Ha Hb.
  - contradiction.
  - inversion Hnd as [| ? ? Hfresh Hnd']; subst.
    assert (Htail : forall k, In (k, v) rest -> In v (map snd rest)).
    { intros k Hk. change v with (snd (k, v)). now apply in_map. }
    destruct Ha as [Ha | Ha]; destruct Hb as [Hb | Hb].
    + congruence.
    + inversion Ha; subst. exfalso. eauto.
    + inversion Hb; subst. exfalso. eauto.
    + now apply IH.
Qed.

Lemma switch_default_iff (tag : Z) (cases : list (Z * A)) (d : A) :
  ~ In d (map snd cases) ->
  (switch tag cases d = d <-> ~ In tag (map fst cases)).
Proof.
  intros Hd. split.
  - intros Heq Hin. apply switch_inv in Heq.
    destruct Heq as [Hcase | [_ Hnot]]; [ | tauto ].
    apply Hd. change d with (snd (tag, d)). now apply in_map.
  - apply switch_default.
Qed.

Lemma switch_injective (cases : list (Z * A)) (d : A) (a b : Z) :
  NoDup (map snd cases) -> ~ In d (map snd cases) ->
  switch a cases d = switch b cases d ->
  a = b \/ (~ In a (map fst cases) /\ ~ In b (map fst cases)).
Proof.
  intros Hnd Hd Heq.
  destruct (switch_inv b cases d _ eq_refl) as [Hb | [Hbd Hb]];
    destruct (switch_inv a cases d _ Heq) as [Ha | [Had Ha]].
  - left. eapply in_snd_unique; eassumption.
  - exfalso. apply Hd. rewrite <- Had.
    change (switch b cases d) with (snd (b, switch b cases d)).
    now apply in_map.
  - exfalso. apply Hd. rewrite <- Hbd.
    change (switch b cases d) with (snd (a, switch b cases d)).
    now apply in_map.
  - right. now split.
Qed.

End SwitchInjective.

Lemma not_in_strings (d : string) (l : list string) :
  existsb (String.eqb d) l = false -> ~ In d l.
Proof.
  intros Hex Hin.
  assert (Hyes : existsb (String.eqb d) l = true).
  { apply existsb_exists. exists d. split; [ exact Hin | apply String.eqb_refl ]. }
  congruence.
Qed.

Lemma in_from_zero (n : nat) (s : Z) :
  In s (map Z.of_nat (seq 0 n)) <-> 0 <= s < Z.of_nat n.
Proof.
  rewrite in_map_iff. split.
  - intros [k [Hk Hin]]. apply in_seq in Hin. lia.
  - intros Hs. exists (Z.to_nat s). split; [ lia | ]. apply in_seq. lia.
Qed.

(** Reduces the two facts of a renderer (injective up to the sentinel, the
    sentinel exactly outside the range) to the lemmas on [switch]; [n] is
    the number of defined values. *)
Ltac read_back n :=
  split;
  [ intros a b Heq;
    apply switch_injective in Heq;
    [ destruct Heq as [Heq | [Ha Hb]];
      [ now left
      | right; split; intros Hr;
        [ apply Ha | apply Hb ];
        apply (proj2 (in_from_zero n _)); vm_compute; exact Hr ]
    | apply (nodupb_NoDup String.eqb String.eqb_refl); reflexivity
    | apply not_in_strings; reflexivity ]
  | intros s; etransitivity;
    [ apply switch_default_iff; apply not_in_strings; reflexivity
    | split; intros Hs Hr; apply Hs;
      [ apply (proj2 (in_from_zero n _)); vm_compute; exact Hr
      | apply (proj1 (in_from_zero n _)) in Hr; vm_compute in Hr; exact Hr ] ] ].

(** X1.  [PoolStatus.String] can be read back: two statuses with the same
    rendering are the same status, unless both are outside the defined
    values [PoolStatusCorruptCache .. PoolStatusOk]; and the rendering is
    ["UNKNOWN"] exactly when the status is outside them. *)
Theorem PoolStatus_String_read_back :
  (forall a b : PoolStatus,
     PoolStatus_String a = PoolStatus_String b ->
     a = b \/ (~ (PoolStatusCorruptCache <= a < PoolStatusOk + 1)
               /\ ~ (PoolStatusCorruptCache <= b < PoolStatusOk + 1)))
  /\ (forall s : PoolStatus,
        PoolStatus_String s = "UNKNOWN" <->
        ~ (PoolStatusCorruptCache <= s < PoolStatusOk + 1)).
Proof. read_back 25%nat. Qed.

(** X2.  [PoolState.String] can be read back: equal renderings come from
    equal states or from two values outside
    [PoolStateActive .. PoolStatePotentiallyActive], and ["UNKNOWN"] is
    rendered exactly outside that range. *)
Theorem PoolState_String_read_back :
  (forall a b : PoolState,
     PoolState_String a = PoolState_String b ->
     a = b \/ (~ (PoolStateActive <= a < PoolStatePotentiallyActive + 1)
               /\ ~ (PoolStateActive <= b < PoolStatePotentiallyActive + 1)))
  /\ (forall s : PoolState,
        PoolState_String s = "UNKNOWN" <->
        ~ (PoolStateActive <= s < PoolStatePotentiallyActive + 1)).
Proof. read_back 8%nat. Qed.

(** X3.  [VDevState.String] can be read back: equal renderings come from
    equal states or from two values outside
    [VDevStateUnknown .. VDevStateHealthy], and ["UNKNOWN"] is rendered
    exactly outside that range (so never for [VDevStateUnknown]). *)
Theorem VDevState_String_read_back :
  (forall a b : VDevState,
     VDevState_String a = VDevState_String b ->
     a = b \/ (~ (VDevStateUnknown <= a < VDevStateHealthy + 1)
               /\ ~ (VDevStateUnknown <= b < VDevStateHealthy + 1)))
  /\ (forall s : VDevState,
        VDevState_String s = "UNKNOWN" <->
        ~ (VDevStateUnknown <= s < VDevStateHealthy + 1)).
Proof. read_back 8%nat. Qed.

(** X4.  The two scan renderers can be read back within their own type:
    equal renderings come from equal values or from two values outside the
    defined ones, and ["<UNKNOWN-VALUE>"] is rendered exactly outside them.
    Across the two types the rendering is ambiguous: both render 0 as
    ["none"]. *)
Theorem Scan_String_read_back :
  ((forall a b : PoolScanFunc,
      PoolScanFunc_String a = PoolScanFunc_String b ->
      a = b \/ (~ (PoolScanFuncNone <= a < PoolScanFuncResilver + 1)
                /\ ~ (PoolScanFuncNone <= b < PoolScanFuncResilver + 1)))
   /\ (forall f : PoolScanFunc,
         PoolScanFunc_String f = "<UNKNOWN-VALUE>" <->
         ~ (PoolScanFuncNone <= f < PoolScanFuncResilver + 1)))
  /\ ((forall a b : DSLScanState,
         DSLScanState_String a = DSLScanState_String b ->
         a = b \/ (~ (DSLScanStateNone <= a < DSLScanStateCanceled + 1)
                   /\ ~ (DSLScanStateNone <= b < DSLScanStateCanceled + 1)))
      /\ (forall s : DSLScanState,
            DSLScanState_String s = "<UNKNOWN-VALUE>" <->
            ~ (DSLScanStateNone <= s < DSLScanStateCanceled + 1)))
  /\ PoolScanFunc_String PoolScanFuncNone
     = DSLScanState_String DSLScanStateNone.
Proof.
  split; [ read_back 3%nat | split; [ read_back 4%nat | reflexivity ] ].
Qed.

(** ** The two blocks of property identifiers *)

Lemma Prop_ids_iota :
  (PoolProp_ids ++ [ PoolNumProps ])%list = iota_values PoolProp_block
  /\ (DatasetProp_ids ++ [ DatasetNumProps ])%list
     = iota_values DatasetProp_block.
Proof. split; reflexivity. Qed.

Lemma Prop_ids_from_zero :
  PoolProp_ids = map Z.of_nat (seq 0 27)
  /\ DatasetProp_ids = map Z.of_nat (seq 0 74).
Proof. split; reflexivity. Qed.

(** X5.  [PoolNumProps] and [DatasetNumProps] bound their blocks: each is
    the number of property identifiers declared before it, and a value is
    one of those identifiers exactly when it lies between the first
    identifier and the count, the count excluded.  No identifier is declared
    twice. *)
Theorem NumProps_bounds :
  (PoolNumProps = Z.of_nat (List.length PoolProp_ids)
   /\ NoDup PoolProp_ids
   /\ forall id : Prop_,
        In id PoolProp_ids <-> PoolPropName <= id < PoolNumProps)
  /\ (DatasetNumProps = Z.of_nat (List.length DatasetProp_ids)
      /\ NoDup DatasetProp_ids
      /\ forall id : Prop_,
           In id DatasetProp_ids <-> DatasetPropType <= id < DatasetNumProps).
Proof.
  split; (split; [ reflexivity | split ]).
  - apply (nodupb_NoDup Z.eqb Z.eqb_refl). reflexivity.
  - intros id. rewrite (proj1 Prop_ids_from_zero). apply in_from_zero.
  - apply (nodupb_NoDup Z.eqb Z.eqb_refl). reflexivity.
  - intros id. rewrite (proj2 Prop_ids_from_zero). apply in_from_zero.
Qed.

(** X6.  The two namespaces share the type [Prop] and both count from 0, so
    they are not disjoint as values: every pool property identifier is also
    the value of a dataset property identifier ([PoolPropName] is
    [DatasetPropType], [PoolPropHealth] is [DatasetPropReferenced]), and so
    is [PoolNumProps] itself. *)
Theorem Prop_namespaces_overlap :
  (forall id : Prop_, In id PoolProp_ids -> In id DatasetProp_ids)
  /\ In PoolNumProps DatasetProp_ids
  /\ PoolPropName = DatasetPropType
  /\ PoolPropHealth = DatasetPropReferenced
  /\ PoolNumProps = DatasetPropName.
Proof.
  repeat split.
  - intros id Hin.
    rewrite (proj1 Prop_ids_from_zero) in Hin.
    rewrite (proj2 Prop_ids_from_zero).
    apply in_from_zero in Hin. apply in_from_zero. lia.
  - rewrite (proj2 Prop_ids_from_zero). apply in_from_zero.
    unfold PoolNumProps. lia.
Qed.

(** ** More on the last-error bridge *)

Lemma ClearLastError_is_with :
  ClearLastError = ClearLastError_with C_clear_last_error.
Proof. reflexivity. Qed.

(** X7.  [ClearLastError] reads before it clears: whatever the C helper
    [clear_last_error] does to the handle, the error returned is the one
    [LastError] finds before the helper runs, and the handle ends as the
    helper leaves the handle the call started from. *)
Theorem ClearLastError_reads_before_clearing
  (clear : Cgo unit) (h : libzfs_handle) :
  ClearLastError_with clear h = (fst (LastError h), snd (clear h)).
Proof.
  unfold ClearLastError_with, bind, ret.
  pose proof (LastError_reads_only h) as Hsame.
  destruct (LastError h) as [err h']. simpl in Hsame. subst h'.
  destruct (clear h) as [[] h'']. reflexivity.
Qed.

(** X8.  Only the error number decides whether [LastError] reports an
    error: the result is [nil] exactly when the number is 0, whatever the
    description holds, and any other number, a negative one too, gives an
    error; with a non-zero number and an empty description the error
    returned has the empty text. *)
Theorem LastError_nil_iff (h : libzfs_handle) :
  (fst (LastError h) = None <-> libzfs_error h = 0)
  /\ (forall d1 d2 : string,
        fst (LastError {| libzfs_error := libzfs_error h; libzfs_desc := d1 |})
          = None <->
        fst (LastError {| libzfs_error := libzfs_error h; libzfs_desc := d2 |})
          = None)
  /\ (libzfs_error h <> 0 -> libzfs_desc h = EmptyString ->
        fst (LastError h) = Some (errors_New EmptyString)).
Proof.
  split; [ | split ].
  - rewrite LastError_value.
    destruct (Z.eqb_spec (libzfs_error h) 0) as [Hz | Hnz].
    + tauto.
    + split; [ discriminate | contradiction ].
  - intros d1 d2. rewrite !LastError_value. simpl.
    destruct (libzfs_error h =? 0)%Z; split; intros; congruence.
  - intros Hnz Hd. rewrite LastError_value.
    apply Z.eqb_neq in Hnz. rewrite Hnz, Hd. reflexivity.
Qed.

(** A negative number recorded with no description: the error is not [nil]
    and reads as the empty string. *)
Lemma LastError_nil_iff_witness :
  fst (LastError {| libzfs_error := -1; libzfs_desc := EmptyString |})
  = Some (errors_New EmptyString).
Proof.
  apply (proj2 (proj2 (LastError_nil_iff
           {| libzfs_error := -1; libzfs_desc := EmptyString |}))).
  - simpl. discriminate.
  - reflexivity.
Defined.

(** ** More on the error codes and the device types *)

Lemma increasing_Sorted (l : list Z) : increasing l = true -> Sorted Z.lt l.
Proof.
  induction l as [| x [| y rest] IH]; simpl; intros H.
  - constructor.
  - repeat constructor.
  - apply andb_prop in H. destruct H as [Hxy Hrest].
    constructor; [ now apply IH | ].
    constructor. now apply Z.ltb_lt.
Qed.

(** X9.  The error constants increase strictly in declaration order, so
    [ESuccess] is the least of them and every other constant is positive;
    they fit a 64-bit [int] up to [EUnsharesmbfailed] (iota 52) and no
    further: [ESharesmbfailed] and the 18 constants after it are 2^63 or
    more. *)
Theorem ErrorCode_increasing :
  StronglySorted Z.lt ErrorCode_values
  /\ Forall (fun code => ESuccess < code) (tl ErrorCode_values)
  /\ nth 52 ErrorCode_values 0 = EUnsharesmbfailed
  /\ Forall (fun code => code < 2 ^ 63) (firstn 53 ErrorCode_values)
  /\ Forall (fun code => 2 ^ 63 <= code) (skipn 53 ErrorCode_values)
  /\ List.length (skipn 53 ErrorCode_values) = 19%nat.
Proof.
  assert (Hsorted : StronglySorted Z.lt ErrorCode_values).
  { apply Sorted_StronglySorted.
    - intros x y z. apply Z.lt_trans.
    - apply increasing_Sorted. vm_compute. reflexivity. }
  repeat split; try reflexivity.
  - exact Hsorted.
  - unfold ErrorCode_values in Hsorted. simpl tl.
    now inversion Hsorted.
  - apply Forall_forall. intros code Hin. vm_compute in Hin.
    repeat (destruct Hin as [Hin | Hin]; [ subst code; reflexivity | ]).
    contradiction.
  - apply Forall_forall. intros code Hin. vm_compute in Hin.
    repeat (destruct Hin as [Hin | Hin]; [ subst code; discriminate | ]).
    contradiction.
Qed.

(** X10.  The eleven device-type strings are pairwise distinct and none is
    empty, so a type string names one kind of device. *)
Theorem VDevType_values_distinct :
  NoDup VDevType_values
  /\ ~ In EmptyString VDevType_values
  /\ List.length VDevType_values = 11%nat.
Proof.
  split; [ | split; [ | reflexivity ] ].
  - apply (nodupb_NoDup String.eqb String.eqb_refl). reflexivity.
  - apply not_in_strings. reflexivity.
Qed.

Lemma booleanT_reads_back (b : bool) :
  negb (booleanT b =? 0)%Z = b /\ (booleanT b = 0 \/ booleanT b = 1).
Proof. destruct b; split; auto. Qed.
